(** * navo_utils.cone: the cone-search facade

    A shallow embedding of [src/navo_utils/cone.py] (class [ConeClass] with
    its methods [__init__], [query] and [_one_cone_search]) together with
    the properties of the facade that the specification states.

    Python values are a small inductive type, raised exceptions are an
    explicit outcome, and the calls that leave the module ([utils.try_query],
    [utils.query_loop]) are recorded in a log so that "before any network
    call" is a statement about that log. *)

From Stdlib Require Import ZArith Floats.PrimFloat.
From stdpp Require Import gmap strings list fin_maps pretty.

#[local] Set Warnings "-register-all".
#[local] Open Scope string_scope.
#[local] Open Scope list_scope.

(** ** Python values *)

(** [astropy.coordinates.SkyCoord]: only [ra.deg] and [dec.deg] are read. *)
Record SkyCoord := mkSkyCoord { ra_deg : float; dec_deg : float }.

Inductive pyval :=
  | PNone
  | PInt (z : Z)
  | PFloat (f : float)
  | PStr (s : string)
  | PBytes (b : string)
  | PTuple (l : list pyval)
  | PList (l : list pyval)
  | PDict (d : gmap string pyval)
  | PSkyCoord (c : SkyCoord).

Inductive pytype :=
  | TNoneType | TInt | TFloat | TStr | TBytes | TTuple | TList | TDict
  | TSkyCoord.

#[global] Instance pytype_eq_dec : EqDecision pytype.
Proof. solve_decision. Defined.

(** [type(v)] *)
Definition type_of (v : pyval) : pytype :=
  match v with
  | PNone => TNoneType
  | PInt _ => TInt
  | PFloat _ => TFloat
  | PStr _ => TStr
  | PBytes _ => TBytes
  | PTuple _ => TTuple
  | PList _ => TList
  | PDict _ => TDict
  | PSkyCoord _ => TSkyCoord
  end.

(** [type(v) is t] *)
Definition type_is (v : pyval) (t : pytype) : bool :=
  bool_decide (type_of v = t).

(** [isinstance(v, SkyCoord)] *)
Definition isinstance_SkyCoord (v : pyval) : bool :=
  match v with PSkyCoord _ => true | _ => false end.

(** ** Exceptions and outcomes *)

Inductive exn :=
  | AssertionError (msg : string)
  | UnboundLocalError (name : string)
  | TypeError (msg : string)
  | IndexError (msg : string)
  | KeyError (key : string)
  | LibraryError (msg : string).

Inductive outcome (A : Type) :=
  | Return (a : A)
  | Raise (e : exn).
Arguments Return {A} a.
Arguments Raise {A} e.

(** ** Tables and HTTP responses *)

(** [requests.Response]: the decoder reads [content] and [url]. *)
Record Response := mkResponse { content : string; url : string }.

(** [astropy.table.Table]: rows, the masked flag and the [meta] mapping,
    whose entries are lists so that stacked tables can merge them. *)
Record Table := mkTable {
  masked : bool;
  colnames : list string;
  rows : list (list pyval);
  meta : gmap string (list pyval)
}.

(** ** Calls that leave the module *)

Inductive event :=
  | CallTryQuery (service : pyval) (get_params : gmap string pyval)
                 (timeout retries : Z)
  | CallQueryLoop (service : pyval) (params : list (gmap string pyval)).

(** ** The monad of the embedding: a log of calls, and exceptions *)

Definition Py (A : Type) : Type := list event -> outcome A * list event.

Definition ret {A} (a : A) : Py A := fun log => (Return a, log).
Definition raise {A} (e : exn) : Py A := fun log => (Raise e, log).
Definition bind {A B} (m : Py A) (k : A -> Py B) : Py B :=
  fun log =>
    match m log with
    | (Return a, log') => k a log'
    | (Raise e, log') => (Raise e, log')
    end.
Definition lift {A} (o : outcome A) : Py A := fun log => (o, log).
Definition emit (ev : event) : Py unit := fun log => (Return tt, log ++ [ev]).

Notation "'do' x <- m ; k" := (bind m (fun x => k))
  (at level 10, x name, m at level 100, k at level 200).
Notation "'run' m ; k" := (bind m (fun _ => k))
  (at level 10, m at level 100, k at level 200).

(** [assert cond, msg] *)
Definition py_assert (cond : bool) (msg : string) : Py unit :=
  if cond then ret tt else raise (AssertionError msg).

(** Reading a local variable: a slot that no assignment has filled yet
    raises [UnboundLocalError]. *)
Definition load_fast (name : string) (slot : option pyval) : Py pyval :=
  match slot with
  | Some v => ret v
  | None => raise (UnboundLocalError name)
  end.

(** [len(v)] *)
Definition py_len (v : pyval) : Py nat :=
  match v with
  | PStr s | PBytes s => ret (String.length s)
  | PTuple l | PList l => ret (length l)
  | PDict d => ret (size d)
  | _ => raise (TypeError "object has no len()")
  end.

(** [len(v) == n], for the values whose length the module tests after it
    has tested their type. *)
Definition len_is (v : pyval) (n : nat) : bool :=
  match v with
  | PTuple l | PList l => bool_decide (length l = n)
  | _ => false
  end.

(** [v[i]] for a natural index *)
Definition py_getitem (v : pyval) (i : nat) : Py pyval :=
  match v with
  | PTuple l | PList l =>
      match l !! i with
      | Some x => ret x
      | None => raise (IndexError "index out of range")
      end
  | _ => raise (TypeError "object is not subscriptable")
  end.

(** [enumerate(v)], forced: the pairs the comprehension iterates over *)
Definition py_enumerate (v : pyval) : Py (list (nat * pyval)) :=
  match v with
  | PTuple l | PList l => ret (imap pair l)
  | _ => raise (TypeError "object is not iterable")
  end.

(** A list comprehension: the body runs for each element in order and the
    first exception ends it. *)
Fixpoint comprehension {A B} (body : A -> Py B) (l : list A) : Py (list B) :=
  match l with
  | [] => ret []
  | x :: l' => do y <- body x ; do ys <- comprehension body l' ; ret (y :: ys)
  end.

(** ** The collaborators outside [cone.py] *)

Class Externals := {
  (** [astroquery.utils.parse_coordinates] on a string *)
  parse_coordinates : string -> outcome SkyCoord;
  (** the text [str.format] substitutes for a value *)
  py_format : pyval -> string;
  (** what [utils.try_query] gives back, which the network decides: the
      answer may depend on everything that was called before *)
  try_query_reply :
    list event -> pyval -> gmap string pyval -> Z -> Z -> outcome Response;
  (** [utils.astropy_table_from_votable_response]: it reads the response
      and calls nothing *)
  astropy_table_from_votable_response : Response -> outcome Table;
  (** [utils.query_loop] *)
  query_loop :
    (pyval -> pyval -> pyval -> Py Table) ->
    pyval -> list (gmap string pyval) -> Py Table
}.

(** ** [class ConeClass] *)

Record ConeClass := mkConeClass { _TIMEOUT : Z; _RETRIES : Z }.

(** [ConeClass.__init__] *)
Definition ConeClass__init__ : ConeClass :=
  {| _TIMEOUT := 3; _RETRIES := 3 |}.

(** [Cone = ConeClass()] *)
Definition Cone : ConeClass := ConeClass__init__.

(** The messages of the two assertions of [query]. *)
Definition coords_message : string :=
  "ERROR: Give a coordinate object that is a single string, a list/tuple (ra,dec), a SkyCoord, or a list of any of the above.".

Definition radius_message : string :=
  "Please give either single radius or list of radii of same length as coords.".

Section Methods.
Context `{Ext : Externals}.

(** [utils.try_query(service, get_params=..., timeout=..., retries=...)]:
    the call is logged and the network answers. *)
Definition utils_try_query (service : pyval)
    (get_params : gmap string pyval) (timeout retries : Z) : Py Response :=
  fun log =>
    (try_query_reply log service get_params timeout retries,
     log ++ [CallTryQuery service get_params timeout retries]).

(** [utils.query_loop(func, service=..., params=...)]: the call is logged
    and the loop of [utils] runs. *)
Definition utils_query_loop (func : pyval -> pyval -> pyval -> Py Table)
    (service : pyval) (params : list (gmap string pyval)) : Py Table :=
  run emit (CallQueryLoop service params) ;
  query_loop func service params.

(** Lines 78-83 of [_one_cone_search]: the position in its three shapes. *)
Definition one_cone_search_coords (coords : pyval) : Py SkyCoord :=
  if (type_is coords TTuple || type_is coords TList) && len_is coords 2
  then
    do c0 <- py_getitem coords 0 ;
    do c1 <- py_getitem coords 1 ;
    lift (parse_coordinates (py_format c0 +:+ " " +:+ py_format c1))
  else
    match coords with
    | PStr s => lift (parse_coordinates s)
    | PSkyCoord c => ret c
    | _ =>
        raise (AssertionError
                 ("ERROR: cannot parse input coordinates "
                  +:+ py_format coords))
    end.

(** [ConeClass._one_cone_search] *)
Definition _one_cone_search (self : ConeClass)
    (coords radius service : pyval) : Py Table :=
  do coords <- one_cone_search_coords coords ;
  let params : gmap string pyval :=
    <["RA" := PFloat (ra_deg coords)]>
      (<["DEC" := PFloat (dec_deg coords)]>
         (<["SR" := radius]> ∅)) in
  do response <-
    utils_try_query service params (_TIMEOUT self) (_RETRIES self) ;
  lift (astropy_table_from_votable_response response).

(** One entry of [params] in [query]:
    [{'coords': c, 'radius': inradius[i]}] *)
Definition query_param (inradius : pyval) (ic : nat * pyval)
    : Py (gmap string pyval) :=
  do r <- py_getitem inradius ic.1 ;
  ret (<["coords" := ic.2]> (<["radius" := r]> ∅)).

(** [ConeClass.query] *)
Definition query (self : ConeClass) (service coords radius : pyval)
    (kwargs : gmap string pyval) : Py Table :=
  let service :=
    if type_is service TStr
    then PDict (<["access_url" := service]> ∅)
    else service in
  let coords :=
    if type_is coords TStr || isinstance_SkyCoord coords
    then PList [coords]
    else coords in
  run py_assert (type_is coords TList) coords_message ;
  (* the local [inradius] has not been assigned at this point *)
  let inradius_slot : option pyval := None in
  do inradius <-
    (if negb (type_is radius TList)
     then
       do n <- py_len coords ;
       ret (PList (replicate n radius))
     else
       do inradius <- load_fast "inradius" inradius_slot ;
       do n <- py_len inradius ;
       do m <- py_len coords ;
       run py_assert (bool_decide (n = m)) radius_message ;
       ret inradius) ;
  do pairs <- py_enumerate coords ;
  do params <- comprehension (query_param inradius) pairs ;
  utils_query_loop (_one_cone_search self) service params.

End Methods.

(** ** The decoder and the loop of [utils] *)

(** Modelled from the spec: [utils.astropy_table_from_votable_response] is
    not among the sources.  Section 4.4: the response body is parsed as a
    VOTable; on success the table carries [url] and [xml_raw] in its
    metadata as single-element lists; on any parse exception an empty masked
    table is returned with the same two entries.  [Table_read] stands for
    [astropy.table.Table.read] on the body. *)
Definition votable_response_to_table (Table_read : string -> outcome Table)
    (response : Response) : outcome Table :=
  match Table_read (content response) with
  | Return table =>
      Return {| masked := masked table;
                colnames := colnames table;
                rows := rows table;
                meta := <["url" := [PStr (url response)]]>
                          (<["xml_raw" := [PBytes (content response)]]>
                             (meta table)) |}
  | Raise _ =>
      Return {| masked := true;
                colnames := [];
                rows := [];
                meta := <["url" := [PStr (url response)]]>
                          (<["xml_raw" := [PBytes (content response)]]> ∅) |}
  end.

(** [astropy.table.vstack] of two tables: rows in order, metadata lists
    merged entry by entry. *)
Definition vstack2 (t1 t2 : Table) : Table :=
  {| masked := masked t1 || masked t2;
     colnames := if bool_decide (colnames t1 = []) then colnames t2
                 else colnames t1;
     rows := rows t1 ++ rows t2;
     meta := union_with (fun l1 l2 => Some (l1 ++ l2)) (meta t1) (meta t2) |}.

Definition empty_table : Table :=
  {| masked := false; colnames := []; rows := []; meta := ∅ |}.

(** Modelled from the spec: [utils.query_loop] is not among the sources.
    Section 4.5: the single-query function is invoked once per parameter
    mapping, in order, and the tables are row-stacked.  The spec leaves the
    fault isolation open; here the first exception ends the loop. *)
Fixpoint query_loop_tables (func : pyval -> pyval -> pyval -> Py Table)
    (service : pyval) (params : list (gmap string pyval)) : Py (list Table) :=
  match params with
  | [] => ret []
  | p :: rest =>
      match p !! "coords", p !! "radius" with
      | Some c, Some r =>
          do t <- func c r service ;
          do ts <- query_loop_tables func service rest ;
          ret (t :: ts)
      | None, _ => raise (KeyError "coords")
      | _, None => raise (KeyError "radius")
      end
  end.

Definition sequential_query_loop (func : pyval -> pyval -> pyval -> Py Table)
    (service : pyval) (params : list (gmap string pyval)) : Py Table :=
  do ts <- query_loop_tables func service params ;
  ret (foldl vstack2 empty_table ts).

(** ** A sample environment

    One concrete choice of the collaborators, on which the statements below
    are run: a coordinate parser that knows two positions, a network that
    answers every request with the same body, and a VOTable reader that
    rejects that body. *)
Module Sample.

Definition sky_10_20 : SkyCoord := {| ra_deg := 10; dec_deg := 20 |}.
Definition sky_30_40 : SkyCoord := {| ra_deg := 30; dec_deg := 40 |}.

Definition parse (s : string) : outcome SkyCoord :=
  if bool_decide (s = "10 20") then Return sky_10_20
  else if bool_decide (s = "30 40") then Return sky_30_40
  else Raise (LibraryError "cannot parse coordinates").

Definition format (v : pyval) : string :=
  match v with
  | PStr s => s
  | PInt z => pretty z
  | _ => "<object>"
  end.

Definition body : string := "<html>service unavailable</html>".
Definition reply_url : string := "http://example.org/cone?RA=10&DEC=20&SR=0.5".

Definition reply (log : list event) (service : pyval)
    (get_params : gmap string pyval) (timeout retries : Z)
    : outcome Response :=
  Return {| content := body; url := reply_url |}.

Definition read (b : string) : outcome Table :=
  Raise (LibraryError "not a VOTable").

#[export] Instance ext : Externals :=
  {| parse_coordinates := parse;
     py_format := format;
     try_query_reply := reply;
     astropy_table_from_votable_response := votable_response_to_table read;
     query_loop := sequential_query_loop |}.

Definition service_url : pyval := PStr "http://example.org/cone".
Definition radius : pyval := PFloat 0.5.

End Sample.

(** ** A sample environment whose network is down

    The collaborators of [Sample], except that every request ends in the
    error [utils.try_query] raises once its attempts are used up. *)
Module Outage.

Definition exhausted : exn := LibraryError "no response after 3 attempts".

Definition reply (log : list event) (service : pyval)
    (get_params : gmap string pyval) (timeout retries : Z)
    : outcome Response :=
  Raise exhausted.

Definition ext : Externals :=
  {| parse_coordinates := Sample.parse;
     py_format := Sample.format;
     try_query_reply := reply;
     astropy_table_from_votable_response :=
       votable_response_to_table Sample.read;
     query_loop := sequential_query_loop |}.

End Outage.

(** ** Vocabulary of the statements *)

(** The parameter mapping [{'RA': ..., 'DEC': ..., 'SR': radius}] of line 85. *)
Definition get_params_of (position : SkyCoord) (radius : pyval)
    : gmap string pyval :=
  <["RA" := PFloat (ra_deg position)]>
    (<["DEC" := PFloat (dec_deg position)]> (<["SR" := radius]> ∅)).

(** The mapping [{'coords': c, 'radius': radius}]. *)
Definition param_of (radius c : pyval) : gmap string pyval :=
  <["coords" := c]> (<["radius" := radius]> ∅).

(** Lines 57-58 of [query]: a bare URL becomes a one-key descriptor. *)
Definition service_descriptor (service : pyval) : pyval :=
  if type_is service TStr then PDict (<["access_url" := service]> ∅)
  else service.

(** What [query] does once it hands [params] to the loop of [utils]. *)
Definition hands_over `{Externals} (self : ConeClass) (service : pyval)
    (params : list (gmap string pyval)) : Py Table :=
  fun log =>
    query_loop (_one_cone_search self) service params
      (log ++ [CallQueryLoop service params]).

(** The positions [query] loops over, for the shapes of [coords] that pass
    its assertion: a string or a [SkyCoord] is one position, a list is one
    position per element. *)
Definition positions (coords : pyval) : option (list pyval) :=
  match coords with
  | PStr _ | PSkyCoord _ => Some [coords]
  | PList cs => Some cs
  | _ => None
  end.

(** Decide the type tests on values whose head constructor is known. *)
Ltac type_tests :=
  repeat match goal with
  | |- context [type_is ?v ?t] =>
      let b := eval cbv in (type_is v t) in
      match b with
      | true => change (type_is v t) with true
      | false => change (type_is v t) with false
      end
  end.

(** * Properties *)

(** ** Runs on the sample environment *)

Example sample_two_positions :
  (query (Ext := Sample.ext) Cone Sample.service_url
     (PList [PStr "10 20"; PStr "30 40"]) Sample.radius ∅ []).2
  = [ CallQueryLoop (service_descriptor Sample.service_url)
        [param_of Sample.radius (PStr "10 20");
         param_of Sample.radius (PStr "30 40")];
      CallTryQuery (service_descriptor Sample.service_url)
        (<["RA" := PFloat 10]>
           (<["DEC" := PFloat 20]> (<["SR" := Sample.radius]> ∅))) 3 3;
      CallTryQuery (service_descriptor Sample.service_url)
        (<["RA" := PFloat 30]>
           (<["DEC" := PFloat 40]> (<["SR" := Sample.radius]> ∅))) 3 3 ].
Proof. vm_compute. reflexivity. Qed.

Example sample_pair_in_list :
  (_one_cone_search (Ext := Sample.ext) Cone (PTuple [PInt 10; PInt 20])
     Sample.radius (service_descriptor Sample.service_url) []).2
  = [ CallTryQuery (service_descriptor Sample.service_url)
        (<["RA" := PFloat 10]>
           (<["DEC" := PFloat 20]> (<["SR" := Sample.radius]> ∅))) 3 3 ].
Proof. vm_compute. reflexivity. Qed.

Example sample_number_is_no_position :
  _one_cone_search (Ext := Sample.ext) Cone (PInt 10) Sample.radius
    (service_descriptor Sample.service_url) []
  = (Raise (AssertionError "ERROR: cannot parse input coordinates 10"), []).
Proof. vm_compute. reflexivity. Qed.

(** ** Running computations *)

Lemma bind_return {A B} (m : Py A) (k : A -> Py B) log a log' :
  m log = (Return a, log') -> bind m k log = k a log'.
Proof. intros Hm. unfold bind. now rewrite Hm. Qed.

Lemma type_is_true v t : type_is v t = true <-> type_of v = t.
Proof. unfold type_is. apply bool_decide_eq_true. Qed.

Lemma type_is_false v t : type_is v t = false <-> type_of v ≠ t.
Proof. unfold type_is. apply bool_decide_eq_false. Qed.

(** ** The comprehension over a broadcast radius *)

Lemma comprehension_broadcast n radius (cs : list pyval) k log :
  k + length cs <= n ->
  comprehension (query_param (PList (replicate n radius)))
    (imap (fun i c => (k + i, c)) cs) log
  = (Return (param_of radius <$> cs), log).
Proof.
  revert k. induction cs as [|c cs IH]; intros k Hk; [reflexivity|].
  cbn [length] in Hk. rewrite imap_cons. cbn [comprehension].
  assert (Hhead : query_param (PList (replicate n radius)) (k + 0, c) log
                  = (Return (param_of radius c), log)).
  { unfold query_param, py_getitem. cbn [fst snd].
    rewrite lookup_replicate_2 by lia. reflexivity. }
  rewrite (bind_return _ _ _ _ _ Hhead).
  assert (Htail : imap ((fun i c0 => (k + i, c0)) ∘ S) cs
                  = imap (fun i c0 => (S k + i, c0)) cs).
  { apply imap_ext. intros i x _. cbn. f_equal. lia. }
  rewrite Htail.
  rewrite (bind_return _ _ _ _ _ (IH (S k) ltac:(lia))).
  reflexivity.
Qed.

Lemma comprehension_enumerate radius (cs : list pyval) log :
  comprehension (query_param (PList (replicate (length cs) radius)))
    (imap pair cs) log
  = (Return (param_of radius <$> cs), log).
Proof.
  apply (comprehension_broadcast (length cs) radius cs 0 log). lia.
Qed.

(** ** The facade on a list of positions and one radius *)

Lemma utils_query_loop_hands_over `{Externals} self service params log :
  utils_query_loop (_one_cone_search self) service params log
  = hands_over self service params log.
Proof. reflexivity. Qed.

Lemma query_scalar_radius `{Externals}
    self service coords cs radius kwargs log :
  positions coords = Some cs ->
  type_of radius ≠ TList ->
  query self service coords radius kwargs log
  = hands_over self (service_descriptor service) (param_of radius <$> cs) log.
Proof.
  intros Hc Hr. apply type_is_false in Hr.
  unfold query. fold (service_descriptor service). rewrite Hr.
  destruct coords; try discriminate Hc; injection Hc as <-;
    type_tests; cbn [isinstance_SkyCoord orb negb].
  all: cbv beta iota delta [bind ret py_assert py_len py_enumerate].
  all: rewrite comprehension_enumerate.
  all: apply utils_query_loop_hands_over.
Qed.

Lemma query_unrecognised_coords `{Externals}
    self service coords radius kwargs log :
  positions coords = None ->
  query self service coords radius kwargs log
  = (Raise (AssertionError coords_message), log).
Proof.
  intros Hc. unfold query.
  destruct coords; try discriminate Hc; type_tests; reflexivity.
Qed.

Lemma query_list_radius `{Externals}
    self service coords cs radius kwargs log :
  positions coords = Some cs ->
  type_of radius = TList ->
  query self service coords radius kwargs log
  = (Raise (UnboundLocalError "inradius"), log).
Proof.
  intros Hc Hr. apply type_is_true in Hr.
  unfold query. rewrite Hr.
  destruct coords; try discriminate Hc; type_tests; reflexivity.
Qed.

Lemma positions_of_type coords :
  type_of coords = TStr \/ type_of coords = TSkyCoord \/ type_of coords = TList
  <-> is_Some (positions coords).
Proof.
  split.
  - intros [Ht | [Ht | Ht]]; destruct coords; try discriminate Ht; cbn; eauto.
  - intros [cs Hcs]. destruct coords; try discriminate Hcs; cbn; auto.
Qed.

(** ** The position inside one cone search *)


Lemma one_cone_search_coords_log `{Externals} coords log :
  (one_cone_search_coords coords log).2 = log.
Proof.
  unfold one_cone_search_coords.
  destruct coords; type_tests; cbn [orb andb len_is]; try reflexivity.
  all: case_bool_decide; [|reflexivity].
  all: destruct l as [|a [|b [|]]]; try discriminate; reflexivity.
Qed.

(** ** The decoder of section 4.4 on a body that does not parse *)

Lemma votable_response_to_table_unparsable Table_read response e :
  Table_read (content response) = Raise e ->
  votable_response_to_table Table_read response
  = Return {| masked := true; colnames := []; rows := [];
              meta := <["url" := [PStr (url response)]]>
                        (<["xml_raw" := [PBytes (content response)]]> ∅) |}.
Proof. intros Hread. unfold votable_response_to_table. now rewrite Hread. Qed.

(** * The claims *)

(** C1, at the input [query("http://example.org/cone", ["10 20", "30 40"],
    [0.5])]: two positions and an explicit radius list of length one.  The
    call ends before anything is logged, but with [UnboundLocalError] for
    the local [inradius], not with the assertion on the lengths. *)
Theorem query_radius_length_mismatch `{Externals} :
  query Cone Sample.service_url (PList [PStr "10 20"; PStr "30 40"])
    (PList [Sample.radius]) ∅ []
  = (Raise (UnboundLocalError "inradius"), []).
Proof. reflexivity. Qed.

(** C2, as stated, fails when [coords] does not pass the shape assertion:
    [query(url, (10, 20), [0.5])] has a list radius and raises the
    assertion of line 63, not an unbound-local error. *)
Lemma list_radius_tuple_coords_asserts :
  type_of (PList [Sample.radius]) = TList
  /\ query (Ext := Sample.ext) Cone Sample.service_url
       (PTuple [PInt 10; PInt 20]) (PList [Sample.radius]) ∅ []
     = (Raise (AssertionError coords_message), [])
  /\ query (Ext := Sample.ext) Cone Sample.service_url
       (PTuple [PInt 10; PInt 20]) (PList [Sample.radius]) ∅ []
     ≠ (Raise (UnboundLocalError "inradius"), []).
Proof.
  split; [reflexivity|]. split; [reflexivity|].
  intros Heq. discriminate Heq.
Qed.

(** C2, amended: a call of [query] whose radius is a list never reaches the
    query loop: it raises with the log unchanged.  When [coords] is a
    string, a [SkyCoord] or a list, what it raises is [UnboundLocalError]
    for [inradius], read before it is assigned and before the assertion on
    the lengths; when [coords] is of another shape, the assertion of line 63
    is raised first. *)
Theorem list_radius_unbound_local `{Externals}
    self service coords radius kwargs log :
  type_of radius = TList ->
  (exists e, query self service coords radius kwargs log = (Raise e, log))
  /\ (type_of coords = TStr \/ type_of coords = TSkyCoord
      \/ type_of coords = TList ->
      query self service coords radius kwargs log
      = (Raise (UnboundLocalError "inradius"), log))
  /\ (type_of coords ≠ TStr -> type_of coords ≠ TSkyCoord ->
      type_of coords ≠ TList ->
      query self service coords radius kwargs log
      = (Raise (AssertionError coords_message), log)).
Proof.
  intros Hr. split; [|split].
  - destruct (positions coords) as [cs|] eqn:Hc.
    + eexists. exact (query_list_radius _ _ _ _ _ _ _ Hc Hr).
    + eexists. exact (query_unrecognised_coords _ _ _ _ _ _ Hc).
  - intros Ht. apply positions_of_type in Ht as [cs Hc].
    exact (query_list_radius _ _ _ _ _ _ _ Hc Hr).
  - intros Hstr Hsky Hlist. apply query_unrecognised_coords.
    destruct (positions coords) as [cs|] eqn:Hc; [|reflexivity].
    assert (Hsome : is_Some (positions coords)) by (rewrite Hc; eauto).
    apply positions_of_type in Hsome as [Ht | [Ht | Ht]]; contradiction.
Qed.

Lemma list_radius_unbound_local_witness :
  type_of (PList [Sample.radius; Sample.radius]) = TList
  /\ query (Ext := Sample.ext) Cone Sample.service_url
       (PList [PStr "10 20"; PStr "30 40"])
       (PList [Sample.radius; Sample.radius]) ∅ []
     = (Raise (UnboundLocalError "inradius"), [])
  /\ query (Ext := Sample.ext) Cone Sample.service_url
       (PTuple [PInt 10; PInt 20])
       (PList [Sample.radius; Sample.radius]) ∅ []
     = (Raise (AssertionError coords_message), []).
Proof.
  split; [reflexivity|]. split.
  - apply (list_radius_unbound_local (H := Sample.ext) Cone
             Sample.service_url (PList [PStr "10 20"; PStr "30 40"])
             (PList [Sample.radius; Sample.radius]) ∅ []);
      [reflexivity | right; right; reflexivity].
  - apply (list_radius_unbound_local (H := Sample.ext) Cone
             Sample.service_url (PTuple [PInt 10; PInt 20])
             (PList [Sample.radius; Sample.radius]) ∅ []);
      [reflexivity | discriminate | discriminate | discriminate].
Defined.




(** C4: on a list of N positions and a radius that is not a list, [query]
    builds exactly N parameter mappings, the i-th being
    [{'coords': coords[i], 'radius': radius}], and hands them to the query
    loop. *)
Theorem query_broadcast_radius `{Externals}
    self service (cs : list pyval) radius kwargs log :
  type_of radius ≠ TList ->
  exists params : list (gmap string pyval),
    length params = length cs
    /\ (forall i c, cs !! i = Some c ->
          params !! i
          = Some (<["coords" := c]> (<["radius" := radius]> ∅)))
    /\ query self service (PList cs) radius kwargs log
       = query_loop (_one_cone_search self) (service_descriptor service)
           params
           (log ++ [CallQueryLoop (service_descriptor service) params]).
Proof.
  intros Hr. exists (param_of radius <$> cs). split; [|split].
  - apply length_fmap.
  - intros i c Hi. rewrite list_lookup_fmap, Hi. reflexivity.
  - now apply query_scalar_radius.
Qed.

Lemma query_broadcast_radius_witness :
  exists params : list (gmap string pyval),
    length params = 2
    /\ (forall i c, [PStr "10 20"; PStr "30 40"] !! i = Some c ->
          params !! i
          = Some (<["coords" := c]> (<["radius" := Sample.radius]> ∅)))
    /\ query (Ext := Sample.ext) Cone Sample.service_url
         (PList [PStr "10 20"; PStr "30 40"]) Sample.radius ∅ []
       = sequential_query_loop (_one_cone_search (Ext := Sample.ext) Cone)
           (service_descriptor Sample.service_url) params
           ([] ++ [CallQueryLoop (service_descriptor Sample.service_url)
                     params]).
Proof.
  apply (query_broadcast_radius (H := Sample.ext) Cone Sample.service_url
           [PStr "10 20"; PStr "30 40"] Sample.radius ∅ []).
  discriminate.
Defined.

(** C5: [ConeClass.__init__] fixes the timeout at 3 seconds and the retries
    at 3, and a single cone search on the instance either fails on the
    position before any call, or issues exactly one retrying GET, with the
    parameter mapping [{RA: ra.deg, DEC: dec.deg, SR: radius}] of the
    normalised position, timeout 3 and retries 3, whose response it
    decodes. *)
Theorem one_cone_search_request `{Externals} coords radius service log :
  _TIMEOUT ConeClass__init__ = 3%Z
  /\ _RETRIES ConeClass__init__ = 3%Z
  /\ match one_cone_search_coords coords log with
     | (Return position, _) =>
         let get_params : gmap string pyval :=
           <["RA" := PFloat (ra_deg position)]>
             (<["DEC" := PFloat (dec_deg position)]>
                (<["SR" := radius]> ∅)) in
         _one_cone_search ConeClass__init__ coords radius service log
         = (match try_query_reply log service get_params 3 3 with
            | Return response => astropy_table_from_votable_response response
            | Raise e => Raise e
            end,
            log ++ [CallTryQuery service get_params 3 3])
     | (Raise e, _) =>
         _one_cone_search ConeClass__init__ coords radius service log
         = (Raise e, log)
     end.
Proof.
  split; [reflexivity|]. split; [reflexivity|].
  pose proof (one_cone_search_coords_log coords log) as Hlog.
  unfold _one_cone_search, bind.
  destruct (one_cone_search_coords coords log) as [[position|e] log'];
    cbn in Hlog; subst log'; [|reflexivity].
  unfold utils_try_query, lift. cbn [_TIMEOUT _RETRIES ConeClass__init__].
  destruct (try_query_reply _ _ _ _ _); reflexivity.
Qed.

(** C6: when [coords] is neither a string, nor a [SkyCoord], nor a list,
    [query] raises the assertion of line 63 and nothing has been called:
    the log is the one it started with. *)
Theorem query_coords_shape_asserted `{Externals}
    self service coords radius kwargs log :
  type_of coords ≠ TStr ->
  isinstance_SkyCoord coords = false ->
  type_of coords ≠ TList ->
  query self service coords radius kwargs log
  = (Raise (AssertionError coords_message), log).
Proof.
  intros Hstr Hsky Hlist. apply query_unrecognised_coords.
  destruct coords; try reflexivity; try discriminate Hsky;
    [now destruct Hstr | now destruct Hlist].
Qed.

Lemma query_coords_shape_asserted_witness :
  query (Ext := Sample.ext) Cone Sample.service_url
    (PTuple [PInt 10; PInt 20]) Sample.radius ∅ []
  = (Raise (AssertionError coords_message), []).
Proof.
  apply (query_coords_shape_asserted (H := Sample.ext)).
  - discriminate.
  - reflexivity.
  - discriminate.
Defined.

(** C7: a bare URL string as [service] is the same call as the one-key
    descriptor [{"access_url": s}]. *)
Theorem query_url_is_descriptor `{Externals} self s coords radius kwargs :
  query self (PStr s) coords radius kwargs
  = query self (PDict (<["access_url" := PStr s]> ∅)) coords radius kwargs.
Proof. unfold query. type_tests. reflexivity. Qed.

(** C8: when the body of the response does not parse as a VOTable, the
    single cone search returns the empty masked table whose metadata holds
    the URL and the raw body, each as a one-element list, and no parse
    exception reaches the caller. *)
Theorem unparsable_body_gives_empty_table `{Externals}
    (Table_read : string -> outcome Table)
    self coords radius service log position response e :
  (forall r, astropy_table_from_votable_response r
             = votable_response_to_table Table_read r) ->
  one_cone_search_coords coords log = (Return position, log) ->
  try_query_reply log service
    (<["RA" := PFloat (ra_deg position)]>
       (<["DEC" := PFloat (dec_deg position)]> (<["SR" := radius]> ∅)))
    (_TIMEOUT self) (_RETRIES self) = Return response ->
  Table_read (content response) = Raise e ->
  exists table,
    (_one_cone_search self coords radius service log).1 = Return table
    /\ rows table = []
    /\ masked table = true
    /\ meta table !! "url" = Some [PStr (url response)]
    /\ meta table !! "xml_raw" = Some [PBytes (content response)].
Proof.
  intros Hdec Hpos Hreply Hread.
  eexists. split.
  - unfold _one_cone_search, bind. rewrite Hpos.
    unfold utils_try_query, lift. rewrite Hreply. cbn [fst].
    rewrite Hdec.
    exact (votable_response_to_table_unparsable Table_read response e Hread).
  - cbn [rows masked meta]. repeat split; by simplify_map_eq.
Qed.

Lemma unparsable_body_gives_empty_table_witness :
  exists table,
    (_one_cone_search (Ext := Sample.ext) Cone (PStr "10 20") Sample.radius
       (service_descriptor Sample.service_url) []).1 = Return table
    /\ rows table = []
    /\ masked table = true
    /\ meta table !! "url" = Some [PStr Sample.reply_url]
    /\ meta table !! "xml_raw" = Some [PBytes Sample.body].
Proof.
  apply (unparsable_body_gives_empty_table (H := Sample.ext) Sample.read
           Cone (PStr "10 20") Sample.radius
           (service_descriptor Sample.service_url) [] Sample.sky_10_20
           {| content := Sample.body; url := Sample.reply_url |}
           (LibraryError "not a VOTable")).
  - intros r. reflexivity.
  - reflexivity.
  - reflexivity.
  - reflexivity.
Defined.

(** C9: the keyword arguments are never read: two calls of [query] that
    differ only in them are the same computation. *)
Theorem query_ignores_kwargs `{Externals}
    self service coords radius (kwargs1 kwargs2 : gmap string pyval) :
  query self service coords radius kwargs1
  = query self service coords radius kwargs2.
Proof. reflexivity. Qed.

(** C10, at the input [query("http://example.org/cone", ["10 20", "30 40"],
    [0.5, 0.5])]: a list of two positions with a radius for each.  No
    parameter mapping is produced: the call raises [UnboundLocalError] for
    [inradius] and the query loop is never entered. *)
Theorem query_two_positions_two_radii `{Externals} :
  query Cone Sample.service_url (PList [PStr "10 20"; PStr "30 40"])
    (PList [Sample.radius; Sample.radius]) ∅ []
  = (Raise (UnboundLocalError "inradius"), []).
Proof. reflexivity. Qed.

(** * Further properties of the code *)

Lemma bind_raise {A B} (m : Py A) (k : A -> Py B) log e log' :
  m log = (Raise e, log') -> bind m k log = (Raise e, log').
Proof. intros Hm. unfold bind. now rewrite Hm. Qed.

(** One cone search on any instance, once the position is known. *)
Lemma one_cone_search_run `{Externals}
    self coords radius service log position :
  one_cone_search_coords coords log = (Return position, log) ->
  _one_cone_search self coords radius service log
  = (match try_query_reply log service (get_params_of position radius)
             (_TIMEOUT self) (_RETRIES self) with
     | Return response => astropy_table_from_votable_response response
     | Raise e => Raise e
     end,
     log ++ [CallTryQuery service (get_params_of position radius)
               (_TIMEOUT self) (_RETRIES self)]).
Proof.
  intros Hpos. unfold _one_cone_search, bind. rewrite Hpos.
  unfold utils_try_query, lift, get_params_of.
  destruct (try_query_reply _ _ _ _ _); reflexivity.
Qed.

Lemma one_cone_search_no_position `{Externals}
    self coords radius service log e :
  one_cone_search_coords coords log = (Raise e, log) ->
  _one_cone_search self coords radius service log = (Raise e, log).
Proof. intros Hpos. unfold _one_cone_search. now apply bind_raise. Qed.

Lemma one_cone_search_coords_cases `{Externals} coords log :
  (exists position,
     one_cone_search_coords coords log = (Return position, log))
  \/ (exists e, one_cone_search_coords coords log = (Raise e, log)).
Proof.
  pose proof (one_cone_search_coords_log coords log) as Hlog.
  destruct (one_cone_search_coords coords log) as [[position|e] log'];
    cbn in Hlog; subst log'; eauto.
Qed.

(** X1: a position that is neither a two-element tuple or list, nor a
    string, nor a [SkyCoord] ends [_one_cone_search] in the assertion of
    line 83, whose message carries the formatted value, and no request has
    been made.  Tuples and lists of any other length are such positions. *)
Theorem one_cone_search_rejects_shape `{Externals}
    self coords radius service log :
  (forall a b, coords ≠ PTuple [a; b] /\ coords ≠ PList [a; b]) ->
  type_of coords ≠ TStr ->
  isinstance_SkyCoord coords = false ->
  _one_cone_search self coords radius service log
  = (Raise (AssertionError
              ("ERROR: cannot parse input coordinates " +:+ py_format coords)),
     log).
Proof.
  intros Hpair Hstr Hsky. apply one_cone_search_no_position.
  unfold one_cone_search_coords.
  destruct coords; try discriminate Hsky; try (now destruct Hstr);
    type_tests; cbn [orb andb len_is]; try reflexivity.
  all: case_bool_decide as Hlen; [|reflexivity].
  all: destruct l as [|a [|b [|]]]; try discriminate Hlen.
  all: destruct (Hpair a b) as [Ht Hl]; congruence.
Qed.

Lemma one_cone_search_rejects_shape_witness :
  _one_cone_search (Ext := Sample.ext) Cone
    (PList [PInt 10; PInt 20; PInt 30]) Sample.radius
    (service_descriptor Sample.service_url) []
  = (Raise (AssertionError
              "ERROR: cannot parse input coordinates <object>"), []).
Proof.
  apply (one_cone_search_rejects_shape (H := Sample.ext) Cone
           (PList [PInt 10; PInt 20; PInt 30])).
  - intros a b. split; discriminate.
  - discriminate.
  - reflexivity.
Defined.

(** X2: in [_one_cone_search] a pair is the same search as the string made
    of its two formatted components with a space between them, whether the
    pair is a tuple or a list. *)
Theorem one_cone_search_pair_is_string `{Externals}
    self a b radius service :
  _one_cone_search self (PTuple [a; b]) radius service
  = _one_cone_search self (PStr (py_format a +:+ " " +:+ py_format b))
      radius service
  /\ _one_cone_search self (PList [a; b]) radius service
     = _one_cone_search self (PStr (py_format a +:+ " " +:+ py_format b))
         radius service.
Proof. split; reflexivity. Qed.

(** X3: [_one_cone_search] does not catch what [utils.try_query] raises:
    when the position is understood and the request ends in an exception,
    the search raises that exception, after the one request and without
    decoding anything. *)
Theorem one_cone_search_propagates `{Externals}
    self coords radius service log position e :
  one_cone_search_coords coords log = (Return position, log) ->
  try_query_reply log service (get_params_of position radius)
    (_TIMEOUT self) (_RETRIES self) = Raise e ->
  _one_cone_search self coords radius service log
  = (Raise e,
     log ++ [CallTryQuery service (get_params_of position radius)
               (_TIMEOUT self) (_RETRIES self)]).
Proof.
  intros Hpos Hreply.
  rewrite (one_cone_search_run self coords radius service log position Hpos).
  now rewrite Hreply.
Qed.

Lemma one_cone_search_propagates_witness :
  _one_cone_search (Ext := Outage.ext) Cone (PStr "10 20") Sample.radius
    (service_descriptor Sample.service_url) []
  = (Raise Outage.exhausted,
     [] ++ [CallTryQuery (service_descriptor Sample.service_url)
              (get_params_of Sample.sky_10_20 Sample.radius) 3 3]).
Proof.
  apply (one_cone_search_propagates (H := Outage.ext) Cone (PStr "10 20")
           Sample.radius (service_descriptor Sample.service_url) []
           Sample.sky_10_20 Outage.exhausted).
  - reflexivity.
  - reflexivity.
Defined.

(** X4: for [query], a single string or [SkyCoord] is the same call as the
    one-element list that holds it, whatever the service, the radius and
    the keyword arguments are. *)
Theorem query_single_is_singleton `{Externals}
    self service coords radius kwargs :
  type_of coords = TStr \/ type_of coords = TSkyCoord ->
  query self service coords radius kwargs
  = query self service (PList [coords]) radius kwargs.
Proof.
  intros [Ht | Ht]; destruct coords; try discriminate Ht;
    unfold query; type_tests; reflexivity.
Qed.

Lemma query_single_is_singleton_witness :
  query (Ext := Sample.ext) Cone Sample.service_url (PStr "10 20")
    Sample.radius ∅
  = query (Ext := Sample.ext) Cone Sample.service_url
      (PList [PStr "10 20"]) Sample.radius ∅.
Proof.
  apply (query_single_is_singleton (H := Sample.ext)).
  left. reflexivity.
Defined.

(** X5: whatever its arguments, [query] does one of three things: it raises
    the assertion on the shape of [coords], it raises [UnboundLocalError]
    for [inradius], both with nothing called, or it hands one parameter
    mapping per position to the query loop.  It makes no request of its
    own, and the assertion on the lengths of line 69 is never what it
    raises before the loop. *)
Theorem query_outcomes `{Externals} self service coords radius kwargs log :
  query self service coords radius kwargs log
  = (Raise (AssertionError coords_message), log)
  \/ query self service coords radius kwargs log
     = (Raise (UnboundLocalError "inradius"), log)
  \/ exists cs,
       positions coords = Some cs
       /\ query self service coords radius kwargs log
          = hands_over self (service_descriptor service)
              (param_of radius <$> cs) log.
Proof.
  destruct (positions coords) as [cs|] eqn:Hc.
  - destruct (decide (type_of radius = TList)) as [Hr | Hr].
    + right; left. exact (query_list_radius _ _ _ _ _ _ _ Hc Hr).
    + right; right. exists cs. split; [reflexivity|].
      exact (query_scalar_radius _ _ _ _ _ _ _ Hc Hr).
  - left. exact (query_unrecognised_coords _ _ _ _ _ _ Hc).
Qed.

(** X6: a single cone search keeps the log it was given and adds at most one
    call to it, a [utils.try_query] with the timeout and the retries of the
    instance; it never enters the query loop. *)
Theorem one_cone_search_at_most_one_request `{Externals}
    self coords radius service log :
  (_one_cone_search self coords radius service log).2 = log
  \/ exists get_params,
       (_one_cone_search self coords radius service log).2
       = log ++ [CallTryQuery service get_params
                   (_TIMEOUT self) (_RETRIES self)].
Proof.
  destruct (one_cone_search_coords_cases coords log)
    as [[position Hpos] | [e Hpos]].
  - right. exists (get_params_of position radius).
    now rewrite (one_cone_search_run _ _ _ _ _ _ Hpos).
  - left. now rewrite (one_cone_search_no_position _ _ _ _ _ _ Hpos).
Qed.
